(** * lib/tmdb.ts: the TMDB-to-Douban adapter

    A shallow embedding of [src/lib/tmdb.ts].  The module reads loosely typed
    JSON ([any]) from the TMDB REST API and reshapes it into the
    [DoubanSubject] records the frontend expects.  Since the source probes
    untyped values, the embedding carries a small model of JavaScript values
    with the exact operators the source applies to them: property reads,
    [||], [!], [===], template literals, [.toString()], [.split()], [.map()]
    and [.filter()].  A thrown [TypeError] is an explicit [Throw] result. *)

From Stdlib Require Import String Ascii List ZArith Bool Lia.
Import ListNotations.
Open Scope string_scope.

Set Warnings "-register-all".

(** ** JavaScript numbers

    The source never computes with numbers: it tests them for truthiness
    ([item.vote_average || 0]), prints them ([page.toString()],
    [item.id.toString()]) and writes the literals [0], [1] and [20].  The
    development is therefore generic in the representation of IEEE doubles
    and only asks for these three operations. *)
Class JSNumber (number : Type) : Type := {
  num_truthy : number -> bool;      (* ToBoolean: false on 0, -0 and NaN *)
  num_toString : number -> string;  (* Number.prototype.toString() *)
  num_lit : Z -> number             (* an integer literal of the source *)
}.

(** Decimal printing of integers, for the integer instance below. *)
Definition digit_of (n : nat) : ascii := ascii_of_nat (48 + n).

Fixpoint digits_of (fuel : nat) (n : nat) (acc : string) : string :=
  match fuel with
  | O => acc
  | S fuel' =>
      let acc' := String (digit_of (n mod 10)) acc in
      match n / 10 with
      | O => acc'
      | q => digits_of fuel' q acc'
      end
  end.

Definition string_of_Z (z : Z) : string :=
  match z with
  | Z0 => "0"
  | Zpos p => digits_of (Pos.to_nat p) (Pos.to_nat p) ""
  | Zneg p => "-" ++ digits_of (Pos.to_nat p) (Pos.to_nat p) ""
  end.

(** Integer-valued doubles: enough to run the code on identifiers and pages. *)
#[export] Instance ZNumber : JSNumber Z := {
  num_truthy z := negb (Z.eqb z 0);
  num_toString := string_of_Z;
  num_lit z := z
}.

(** ** Exceptions and results *)

Inductive exn : Type :=
| TypeError.

Inductive result (A : Type) : Type :=
| Ok (a : A)
| Throw (e : exn).

Arguments Ok {A} a.
Arguments Throw {A} e.

Definition bind {A B : Type} (c : result A) (k : A -> result B) : result B :=
  match c with
  | Ok a => k a
  | Throw e => Throw e
  end.

Declare Scope js_scope.
Delimit Scope js_scope with js.
Notation "x <- c ;; k" := (bind c (fun x => k))
  (at level 61, c at next level, right associativity) : js_scope.
Open Scope js_scope.

(** [Array.prototype.map] with a callback that may throw: elements are
    visited left to right and the first exception aborts the loop. *)
Fixpoint mapM {A B : Type} (f : A -> result B) (l : list A) : result (list B) :=
  match l with
  | [] => Ok []
  | x :: rest =>
      y <- f x ;;
      ys <- mapM f rest ;;
      Ok (y :: ys)
  end.

(** [Array.prototype.filter] with a callback that may throw. *)
Fixpoint filterM {A : Type} (f : A -> result bool) (l : list A) : result (list A) :=
  match l with
  | [] => Ok []
  | x :: rest =>
      keep <- f x ;;
      kept <- filterM f rest ;;
      Ok (if keep then x :: kept else kept)
  end.

(** ** Strings *)

(** [s.split(sep)] for a one-character separator [sep]; the result is never
    empty, and [''.split('-')] is [['']]. *)
Fixpoint split (sep : ascii) (s : string) : list string :=
  match s with
  | EmptyString => [""]
  | String c rest =>
      if Ascii.eqb c sep then "" :: split sep rest
      else match split sep rest with
           | piece :: pieces => String c piece :: pieces
           | [] => [String c ""]
           end
  end.

(** The part of [s] before the first occurrence of [sep] (all of [s] when
    there is none): what "truncating at the first separator" means. *)
Fixpoint truncate_at (sep : ascii) (s : string) : string :=
  match s with
  | EmptyString => ""
  | String c rest => if Ascii.eqb c sep then "" else String c (truncate_at sep rest)
  end.

Section TMDB.

Context {number : Type} `{JSNumber number}.

(** [process.env.TMDB_API_KEY], read once when the module is loaded. *)
Variable TMDB_API_KEY : option string.

(** ** JavaScript values

    What [res.json()] can produce, plus [undefined], which appears as soon as
    a missing property is read.  An object is the list of its own data
    properties; the first binding of a key is the one that is read. *)
Inductive value : Type :=
| VUndefined
| VNull
| VBool (b : bool)
| VNum (n : number)
| VStr (s : string)
| VArr (elems : list value)
| VObj (fields : list (string * value)).

Fixpoint lookup (k : string) (fields : list (string * value)) : value :=
  match fields with
  | [] => VUndefined
  | (k', v) :: rest => if String.eqb k k' then v else lookup k rest
  end.

Definition has_own (k : string) (fields : list (string * value)) : bool :=
  existsb (fun kv => String.eqb k (fst kv)) fields.

Definition nullish (v : value) : bool :=
  match v with
  | VUndefined | VNull => true
  | _ => false
  end.

(** ToBoolean. *)
Definition truthy (v : value) : bool :=
  match v with
  | VUndefined | VNull => false
  | VBool b => b
  | VNum n => num_truthy n
  | VStr s => negb (String.eqb s "")
  | VArr _ | VObj _ => true
  end.

(** [v.k] for a data key [k].  Reading a property of [undefined] or [null]
    throws; an object yields its own property or [undefined]; primitives and
    arrays yield [undefined], because none of the keys the source reads
    ([id], [title], [name], [results], ...) is defined on a built-in
    prototype. *)
Definition get (v : value) (k : string) : result value :=
  match v with
  | VUndefined | VNull => Throw TypeError
  | VObj fields => Ok (lookup k fields)
  | _ => Ok VUndefined
  end.

(** [a || b], with [b] evaluated only when [a] is falsy. *)
Definition or_else (a : value) (b : result value) : result value :=
  if truthy a then Ok a else b.

(** [v === 'lit']. *)
Definition strict_eq_str (v : value) (lit : string) : bool :=
  match v with
  | VStr s => String.eqb s lit
  | _ => false
  end.

(** The abstract operation ToString, as a template literal applies it.  An
    array is joined with commas, [undefined] and [null] elements printing as
    the empty string.  A parsed object inherits [Object.prototype.toString]
    unless it has an own property [toString]; such a property is plain data,
    not callable, and [Object.prototype.valueOf] returns the object itself,
    so the conversion to a primitive throws. *)
Fixpoint ToString (v : value) : result string :=
  match v with
  | VUndefined => Ok "undefined"
  | VNull => Ok "null"
  | VBool b => Ok (if b then "true" else "false")
  | VNum n => Ok (num_toString n)
  | VStr s => Ok s
  | VArr elems =>
      (fix join (l : list value) : result string :=
         match l with
         | [] => Ok ""
         | x :: rest =>
             s <- (if nullish x then Ok "" else ToString x) ;;
             match rest with
             | [] => Ok s
             | _ :: _ => t <- join rest ;; Ok (s ++ "," ++ t)
             end
         end) elems
  | VObj fields =>
      if has_own "toString" fields then Throw TypeError
      else Ok "[object Object]"
  end.

(** The method call [v.toString()]: there is nothing to call on [undefined]
    and [null]; otherwise the inherited method prints the value as ToString
    does, and an own [toString] data property of an object is not callable. *)
Definition call_toString (v : value) : result string :=
  if nullish v then Throw TypeError else ToString v.

(** The method call [v.split('-')]: only strings have a [split] method. *)
Definition call_split (v : value) (sep : ascii) : result (list string) :=
  match v with
  | VStr s => Ok (split sep s)
  | _ => Throw TypeError
  end.

(** [parts[i]] on an array of strings. *)
Definition index (parts : list string) (i : nat) : value :=
  match nth_error parts i with
  | Some s => VStr s
  | None => VUndefined
  end.

(** The method call [v.map(f)]: only arrays have a [map] method. *)
Definition call_map {B : Type} (v : value) (f : value -> result B) : result (list B) :=
  match v with
  | VArr elems => mapM f elems
  | _ => Throw TypeError
  end.

(** The method call [v.filter(f)]: only arrays have a [filter] method. *)
Definition call_filter (v : value) (f : value -> result bool) : result (list value) :=
  match v with
  | VArr elems => filterM f elems
  | _ => Throw TypeError
  end.

(** ** The module's constants and the Douban subject *)

Definition TMDB_BASE_URL : string := "https://api.themoviedb.org/3".
Definition IMAGE_BASE_URL : string := "https://image.tmdb.org/t/p/w500".
Definition NO_COVER_URL : string := "https://via.placeholder.com/400x600?text=No+Cover".

Record Images : Type := {
  large : string;
  medium : option string;
  small : option string
}.

Record Rating : Type := {
  average : value
}.

Record Person : Type := {
  person_name : string;
  person_id : option string
}.

(** [interface DoubanSubject].  The interface types [title], [original_title],
    [year], [rating.average] and [summary] as strings and a number, but the
    normalizer copies them from the untyped item, so at run time they hold
    whatever value the item carried. *)
Record DoubanSubject : Type := {
  id : string;
  title : value;
  original_title : value;
  year : value;
  images : Images;
  rating : Rating;
  genres : list string;
  casts : list Person;
  directors : list Person;
  summary : value
}.

(** ** normalizeToDouban (lines 28-58) *)

Definition normalizeToDouban (item : value) : result DoubanSubject :=
  first_air_date <- get item "first_air_date" ;;
  let isTv := truthy first_air_date in
  title <- (a <- get item "title" ;;
            or_else a (b <- get item "name" ;;
                       or_else b (Ok (VStr "")))) ;;
  original_title <- (a <- get item "original_title" ;;
                     or_else a (b <- get item "original_name" ;;
                                or_else b (Ok (VStr "")))) ;;
  date <- (a <- get item "release_date" ;;
           or_else a (b <- get item "first_air_date" ;;
                      or_else b (Ok (VStr "")))) ;;
  year <- (if truthy date
           then parts <- call_split date "-"%char ;; Ok (index parts 0)
           else Ok (VStr "")) ;;
  poster_path <- get item "poster_path" ;;
  poster <- (if truthy poster_path
             then p <- ToString poster_path ;; Ok (IMAGE_BASE_URL ++ p)
             else Ok NO_COVER_URL) ;;
  item_id <- get item "id" ;;
  id_string <- call_toString item_id ;;
  vote_average <- get item "vote_average" ;;
  average <- or_else vote_average (Ok (VNum (num_lit 0))) ;;
  overview <- get item "overview" ;;
  summary <- or_else overview (Ok (VStr "")) ;;
  Ok {| id := id_string;
        title := title;
        original_title := original_title;
        year := year;
        images := {| large := poster; medium := Some poster; small := Some poster |};
        rating := {| average := average |};
        genres := [];
        casts := [];
        directors := [];
        summary := summary |}.

(** ** The network and fetchTMDB (lines 61-79)

    A request is the URL the source builds: the address without its query
    string, and the query parameters in the order they are appended.  The
    network answers a request in one of three ways: [fetch] rejects, the
    response has a non-success status, or the response is successful and its
    body parses ([Some]) or fails to parse ([None]) as JSON.  An operation
    runs against a network and yields the requests it issued together with
    its result.  The [console.error] calls are not part of the model. *)
Record request : Type := {
  url : string;
  searchParams : list (string * string)
}.

Inductive response : Type :=
| NetworkError
| HttpError
| HttpOk (body : option value).

Definition network : Type := request -> response.

Definition IO (A : Type) : Type := network -> list request * result A.

Definition io_ret {A : Type} (c : result A) : IO A :=
  fun _ => ([], c).

Definition io_bind {A B : Type} (c : IO A) (k : A -> IO B) : IO B :=
  fun net =>
    match c net with
    | (reqs, Ok a) => let (reqs', r) := k a net in ((reqs ++ reqs')%list, r)
    | (reqs, Throw e) => (reqs, Throw e)
    end.

Notation "x <~ c ;; k" := (io_bind c (fun x => k))
  (at level 61, c at next level, right associativity) : js_scope.

Definition fetch (req : request) : IO response :=
  fun net => ([req], Ok (net req)).

Definition fetchTMDB (endpoint : string) (params : list (string * string)) : IO value :=
  let req := {| url := TMDB_BASE_URL ++ endpoint;
                searchParams :=
                  ([("api_key", match TMDB_API_KEY with Some k => k | None => "" end);
                    ("language", "zh-CN")] ++ params)%list |} in
  res <~ fetch req ;;
  io_ret (match res with
          | NetworkError => Ok VNull
          | HttpError => Ok VNull
          | HttpOk None => Ok VNull
          | HttpOk (Some json) => Ok json
          end).

(** ** getMovieList (lines 82-109) *)

(** The tag-to-endpoint mapping of lines 84-101. *)
Definition getMovieList_endpoint (type tag : string) : string :=
  let endpoint := "/movie/popular" in
  let mediaType := "movie" in
  let mediaType := if String.eqb type "tv" then "tv" else mediaType in
  if String.eqb tag "hot" || String.eqb tag "热门" then
    "/" ++ mediaType ++ "/popular"
  else if String.eqb tag "latest" || String.eqb tag "最新" then
    let endpoint := "/" ++ mediaType ++ "/now_playing" in
    if String.eqb mediaType "tv" then "/tv/on_the_air" else endpoint
  else if String.eqb tag "top250" || String.eqb tag "high_score" then
    "/" ++ mediaType ++ "/top_rated"
  else
    "/" ++ mediaType ++ "/popular".

(** An omitted argument takes the default of the signature:
    [tag = 'hot'], [page = 1], [limit = 20]. *)
Definition getMovieList (type : string) (tag : option string)
    (page limit : option number) : IO (list DoubanSubject) :=
  let tag := match tag with Some t => t | None => "hot" end in
  let page := match page with Some p => p | None => num_lit 1 end in
  let limit := match limit with Some l => l | None => num_lit 20 end in
  let endpoint := getMovieList_endpoint type tag in
  data <~ fetchTMDB endpoint [("page", num_toString page)] ;;
  io_ret (if negb (truthy data) then Ok []
          else
            results <- get data "results" ;;
            if negb (truthy results) then Ok []
            else
              results <- get data "results" ;;
              call_map results normalizeToDouban).

(** ** searchMovies (lines 112-118) *)

Definition searchMovies (query : string) (page : option number) : IO (list DoubanSubject) :=
  let page := match page with Some p => p | None => num_lit 1 end in
  data <~ fetchTMDB "/search/multi" [("query", query); ("page", num_toString page)] ;;
  io_ret (if negb (truthy data) then Ok []
          else
            results <- get data "results" ;;
            if negb (truthy results) then Ok []
            else
              results <- get data "results" ;;
              filtered <- call_filter results
                            (fun i =>
                               media_type <- get i "media_type" ;;
                               if strict_eq_str media_type "movie" then Ok true
                               else
                                 media_type <- get i "media_type" ;;
                                 Ok (strict_eq_str media_type "tv")) ;;
              call_map (VArr filtered) normalizeToDouban).

(** ** Specification vocabulary

    The notions the statements below are phrased in.  None of them is used
    by the code above. *)

(** The value of property [k] of a non-nullish item. *)
Definition field (item : value) (k : string) : value :=
  match item with
  | VObj fields => lookup k fields
  | _ => VUndefined
  end.

(** The first truthy one of a movie-style and a series-style value, and the
    empty string when neither is. *)
Definition movie_then_series (movie series : value) : value :=
  if truthy movie then movie
  else if truthy series then series
  else VStr "".

(** The date the normalizer works from. *)
Definition item_date (item : value) : value :=
  movie_then_series (field item "release_date") (field item "first_air_date").

Definition is_string (v : value) : bool :=
  match v with
  | VStr _ => true
  | _ => false
  end.

(** Values that print without an exception: everything except an object
    with an own [toString] property, at any depth inside arrays. *)
Fixpoint stringifiable (v : value) : bool :=
  match v with
  | VArr elems => forallb stringifiable elems
  | VObj fields => negb (has_own "toString" fields)
  | _ => true
  end.

(** The items the normalizer accepts: objects whose identifier is present
    and printable, whose date is a string (or absent), and whose poster
    path, when truthy, is printable. *)
Definition well_formed_item (item : value) : bool :=
  match item with
  | VObj _ =>
      negb (nullish (field item "id")) && stringifiable (field item "id")
      && is_string (item_date item)
      && (negb (truthy (field item "poster_path"))
          || stringifiable (field item "poster_path"))
  | _ => false
  end.

(** The media kinds the search keeps. *)
Definition movie_or_tv (item : value) : bool :=
  strict_eq_str (field item "media_type") "movie"
  || strict_eq_str (field item "media_type") "tv".

(** The media type [getMovieList] derives from its [type] argument. *)
Definition media_kind (type : string) : string :=
  if String.eqb type "tv" then "tv" else "movie".

(** The defaults of the signatures for an omitted [tag] and [page]
    (lines 82 and 112). *)
Definition tag_or_hot (tag : option string) : string :=
  match tag with
  | Some t => t
  | None => "hot"
  end.

Definition page_or_first (page : option number) : number :=
  match page with
  | Some p => p
  | None => num_lit 1
  end.

(** The fetcher calls of the two operations (lines 103 and 113). *)
Definition list_fetch (type tag : string) (page : number) : IO value :=
  fetchTMDB (getMovieList_endpoint type tag) [("page", num_toString page)].

Definition search_fetch (query : string) (page : number) : IO value :=
  fetchTMDB "/search/multi" [("query", query); ("page", num_toString page)].

(** The request the fetcher builds for an endpoint and its parameters. *)
Definition request_of (endpoint : string) (params : list (string * string)) : request :=
  {| url := TMDB_BASE_URL ++ endpoint;
     searchParams :=
       ([("api_key", match TMDB_API_KEY with Some k => k | None => "" end);
         ("language", "zh-CN")] ++ params)%list |}.

(** Responses on which [getMovieList] completes. *)
Definition list_response_ok (data : value) : bool :=
  negb (truthy data)
  || negb (truthy (field data "results"))
  || match field data "results" with
     | VArr items => forallb well_formed_item items
     | _ => false
     end.

(** Responses on which [searchMovies] completes. *)
Definition search_response_ok (data : value) : bool :=
  negb (truthy data)
  || negb (truthy (field data "results"))
  || match field data "results" with
     | VArr items =>
         forallb (fun i => negb (nullish i)) items
         && forallb well_formed_item (filter movie_or_tv items)
     | _ => false
     end.

(** The properties [normalizeToDouban] reads from an item (lines 29-56). *)
Definition normalizer_keys : list string :=
  ["first_air_date"; "title"; "name"; "original_title"; "original_name";
   "release_date"; "poster_path"; "id"; "vote_average"; "overview"].

(** What the fetcher hands back for a network answer (lines 68-78). *)
Definition is_failure (res : response) : bool :=
  match res with
  | NetworkError | HttpError | HttpOk None => true
  | HttpOk (Some _) => false
  end.

(** ** Auxiliary lemmas *)

Lemma value_nested_ind (P : value -> Prop) :
  P VUndefined -> P VNull ->
  (forall b, P (VBool b)) ->
  (forall n, P (VNum n)) ->
  (forall s, P (VStr s)) ->
  (forall elems, Forall P elems -> P (VArr elems)) ->
  (forall fields, P (VObj fields)) ->
  forall v, P v.
Proof.
  intros Hu Hn Hb Hnum Hs Harr Hobj.
  fix IH 1.
  intros [ | | b | n | s | elems | fields ].
  - exact Hu.
  - exact Hn.
  - apply Hb.
  - apply Hnum.
  - apply Hs.
  - apply Harr.
    induction elems as [ | x rest IHrest ]; constructor.
    + apply IH.
    + exact IHrest.
  - apply Hobj.
Qed.

Lemma ToString_arr_cons (x : value) (rest : list value) :
  ToString (VArr (x :: rest)) =
  (s <- (if nullish x then Ok "" else ToString x) ;;
   match rest with
   | [] => Ok s
   | _ :: _ => t <- ToString (VArr rest) ;; Ok (s ++ "," ++ t)
   end).
Proof. destruct rest; reflexivity. Qed.

Lemma nullish_stringifiable (v : value) : nullish v = true -> stringifiable v = true.
Proof. destruct v; simpl; congruence. Qed.

Lemma ToString_total (v : value) :
  if stringifiable v then exists s, ToString v = Ok s
  else ToString v = Throw TypeError.
Proof.
  induction v as [ | | b | n | s | elems IHelems | fields ] using value_nested_ind;
    simpl stringifiable; try (eexists; reflexivity).
  - induction IHelems as [ | x rest Hx Hrest IHrest ].
    + simpl. eexists; reflexivity.
    + rewrite ToString_arr_cons.
      change (forallb stringifiable (x :: rest))
        with (stringifiable x && forallb stringifiable rest).
      assert (Hhead : if stringifiable x
                      then exists s, (if nullish x then Ok "" else ToString x) = Ok s
                      else (if nullish x then Ok "" else ToString x) = Throw TypeError).
      { destruct (nullish x) eqn:Hnull.
        - rewrite (nullish_stringifiable x Hnull). eexists; reflexivity.
        - exact Hx. }
      destruct (stringifiable x); cbn [andb].
      * destruct Hhead as [s ->]. cbn [bind].
        destruct rest as [ | y rest' ]; [ eexists; reflexivity | ].
        destruct (forallb stringifiable (y :: rest')).
        -- destruct IHrest as [t ->]. eexists; reflexivity.
        -- rewrite IHrest. reflexivity.
      * rewrite Hhead. reflexivity.
  - simpl. destruct (has_own "toString" fields); simpl;
      [ reflexivity | eexists; reflexivity ].
Qed.

Lemma ToString_ok (v : value) :
  stringifiable v = true -> exists s, ToString v = Ok s.
Proof. intros Hv. pose proof (ToString_total v) as Ht. rewrite Hv in Ht. exact Ht. Qed.

Lemma ToString_ok_inv (v : value) (s : string) :
  ToString v = Ok s -> stringifiable v = true.
Proof.
  intros Hs. pose proof (ToString_total v) as Ht.
  destruct (stringifiable v); [ reflexivity | congruence ].
Qed.

Lemma split_head (sep : ascii) (s : string) :
  exists pieces, split sep s = truncate_at sep s :: pieces.
Proof.
  induction s as [ | c rest [pieces IH] ]; simpl.
  - eexists; reflexivity.
  - destruct (Ascii.eqb c sep).
    + eexists; reflexivity.
    + rewrite IH. eexists; reflexivity.
Qed.

Lemma index_split (sep : ascii) (s : string) :
  index (split sep s) 0 = VStr (truncate_at sep s).
Proof. destruct (split_head sep s) as [pieces ->]. reflexivity. Qed.

Lemma mapM_Forall2 {A B : Type} (f : A -> result B) (l : list A) (ys : list B) :
  mapM f l = Ok ys <-> Forall2 (fun x y => f x = Ok y) l ys.
Proof.
  revert ys. induction l as [ | x rest IH ]; intros ys; simpl.
  - split.
    + intros [= <-]. constructor.
    + intros Hall. inversion Hall. reflexivity.
  - split.
    + destruct (f x) as [y | e] eqn:Hfx; simpl; [ | discriminate ].
      destruct (mapM f rest) as [ys' | e] eqn:Hrest; simpl; [ | discriminate ].
      intros [= <-]. constructor; [ exact Hfx | apply IH; reflexivity ].
    + intros Hall. inversion Hall as [ | x' y l' ys' Hfx Hrest ]; subst.
      rewrite Hfx. simpl. apply IH in Hrest. rewrite Hrest. reflexivity.
Qed.

Lemma mapM_total {A B : Type} (f : A -> result B) (ok : A -> bool) (l : list A) :
  (forall x, if ok x then exists y, f x = Ok y else f x = Throw TypeError) ->
  if forallb ok l then exists ys, mapM f l = Ok ys
  else mapM f l = Throw TypeError.
Proof.
  intros Hf. induction l as [ | x rest IH ]; simpl.
  - eexists; reflexivity.
  - specialize (Hf x). destruct (ok x); simpl.
    + destruct Hf as [y ->]. simpl.
      destruct (forallb ok rest).
      * destruct IH as [ys ->]. eexists; reflexivity.
      * rewrite IH. reflexivity.
    + rewrite Hf. reflexivity.
Qed.

(** *** The normalizer, case by case *)

Lemma year_of_date (date : value) :
  (if truthy date
   then parts <- call_split date "-"%char ;; Ok (index parts 0)
   else Ok (VStr "")) =
  (if truthy date
   then match date with
        | VStr d => Ok (VStr (truncate_at "-"%char d))
        | _ => Throw TypeError
        end
   else Ok (VStr "")).
Proof.
  destruct (truthy date); [ | reflexivity ].
  destruct date; try reflexivity.
  simpl. rewrite index_split. reflexivity.
Qed.

Lemma normalizeToDouban_non_object (item : value) :
  (forall fields, item <> VObj fields) ->
  normalizeToDouban item = Throw TypeError.
Proof.
  intros Hitem. destruct item; try reflexivity.
  exfalso. eapply Hitem. reflexivity.
Qed.

Lemma normalizeToDouban_object (fields : list (string * value)) :
  let item := VObj fields in
  normalizeToDouban item =
  (year <- match item_date item with
           | VStr d => Ok (VStr (truncate_at "-"%char d))
           | _ => Throw TypeError
           end ;;
   poster <- (if truthy (field item "poster_path")
              then p <- ToString (field item "poster_path") ;; Ok (IMAGE_BASE_URL ++ p)
              else Ok NO_COVER_URL) ;;
   id_string <- call_toString (field item "id") ;;
   Ok {| id := id_string;
         title := movie_then_series (field item "title") (field item "name");
         original_title :=
           movie_then_series (field item "original_title") (field item "original_name");
         year := year;
         images := {| large := poster; medium := Some poster; small := Some poster |};
         rating := {| average := if truthy (field item "vote_average")
                                 then field item "vote_average"
                                 else VNum (num_lit 0) |};
         genres := [];
         casts := [];
         directors := [];
         summary := if truthy (field item "overview")
                    then field item "overview"
                    else VStr "" |}).
Proof.
  intros item. subst item.
  unfold normalizeToDouban, item_date, movie_then_series, field, get.
  cbn [bind]. unfold or_else at 1 2 3 4 5 6. cbn [bind].
  set (rd := lookup "release_date" fields).
  set (fad := lookup "first_air_date" fields).
  assert (Hdate :
    forall k : value -> result DoubanSubject,
      (date <- (if truthy rd then Ok rd
                else if truthy fad then Ok fad else Ok (VStr "")) ;;
       year <- (if truthy date
                then parts <- call_split date "-"%char ;; Ok (index parts 0)
                else Ok (VStr "")) ;;
       k year) =
      (year <- match (if truthy rd then rd
                      else if truthy fad then fad else VStr "") with
               | VStr d => Ok (VStr (truncate_at "-"%char d))
               | _ => Throw TypeError
               end ;;
       k year)).
  { intros k.
    destruct (truthy rd) eqn:Hrd; cbn [bind].
    - rewrite year_of_date, Hrd. destruct rd; reflexivity.
    - destruct (truthy fad) eqn:Hfad; cbn [bind].
      + rewrite year_of_date, Hfad. destruct fad; reflexivity.
      + reflexivity. }
  subst rd fad.
  destruct (truthy (lookup "title" fields)) eqn:Ht;
    destruct (truthy (lookup "name" fields)) eqn:Hn; cbn [bind];
    (destruct (truthy (lookup "original_title" fields)) eqn:Hot;
     destruct (truthy (lookup "original_name" fields)) eqn:Hon; cbn [bind];
     rewrite Hdate; unfold or_else;
     destruct (truthy (lookup "vote_average" fields));
     destruct (truthy (lookup "overview" fields));
     reflexivity).
Qed.

Lemma call_toString_total (v : value) :
  if negb (nullish v) && stringifiable v then exists s, call_toString v = Ok s
  else call_toString v = Throw TypeError.
Proof.
  unfold call_toString. destruct (nullish v); cbn [negb andb]; [ reflexivity | ].
  apply ToString_total.
Qed.

Lemma normalizeToDouban_total (item : value) :
  if well_formed_item item then exists r, normalizeToDouban item = Ok r
  else normalizeToDouban item = Throw TypeError.
Proof.
  destruct item as [ | | b | n | s | elems | fields ]; try reflexivity.
  rewrite normalizeToDouban_object. unfold well_formed_item.
  set (item := VObj fields).
  pose proof (call_toString_total (field item "id")) as Hid.
  pose proof (ToString_total (field item "poster_path")) as Hposter.
  destruct (negb (nullish (field item "id")) && stringifiable (field item "id"));
    cbn [andb].
  - destruct Hid as [id_string Hid]. rewrite Hid.
    destruct (item_date item); cbn [is_string andb bind]; try reflexivity.
    destruct (truthy (field item "poster_path")); cbn [negb orb bind].
    + destruct (stringifiable (field item "poster_path")).
      * destruct Hposter as [p ->]. cbn [bind]. eexists; reflexivity.
      * rewrite Hposter. reflexivity.
    + eexists; reflexivity.
  - rewrite Hid.
    destruct (item_date item); cbn [bind]; try reflexivity.
    destruct (truthy (field item "poster_path")); cbn [bind]; [ | reflexivity ].
    clear Hposter.
    destruct (ToString (field item "poster_path")) as [p | [] ]; reflexivity.
Qed.

Lemma normalizeToDouban_ok (item : value) :
  well_formed_item item = true -> exists r, normalizeToDouban item = Ok r.
Proof.
  intros Hwf. pose proof (normalizeToDouban_total item) as Ht.
  rewrite Hwf in Ht. exact Ht.
Qed.

Lemma normalizeToDouban_ok_inv (item : value) (r : DoubanSubject) :
  normalizeToDouban item = Ok r -> well_formed_item item = true.
Proof.
  intros Hr. pose proof (normalizeToDouban_total item) as Ht.
  destruct (well_formed_item item); [ reflexivity | congruence ].
Qed.

(** Everything a produced record says about the item it came from. *)
Lemma normalizeToDouban_inv (item : value) (r : DoubanSubject) :
  normalizeToDouban item = Ok r ->
  exists d,
    item_date item = VStr d
    /\ call_toString (field item "id") = Ok (id r)
    /\ title r = movie_then_series (field item "title") (field item "name")
    /\ original_title r =
         movie_then_series (field item "original_title") (field item "original_name")
    /\ year r = VStr (truncate_at "-"%char d)
    /\ (if truthy (field item "poster_path")
        then exists p, ToString (field item "poster_path") = Ok p
                       /\ large (images r) = IMAGE_BASE_URL ++ p
        else large (images r) = NO_COVER_URL)
    /\ medium (images r) = Some (large (images r))
    /\ small (images r) = Some (large (images r))
    /\ rating r = {| average := if truthy (field item "vote_average")
                                then field item "vote_average"
                                else VNum (num_lit 0) |}
    /\ genres r = [] /\ casts r = [] /\ directors r = []
    /\ summary r = (if truthy (field item "overview")
                    then field item "overview"
                    else VStr "").
Proof.
  destruct item as [ | | b | n | s | elems | fields ]; try discriminate.
  rewrite normalizeToDouban_object.
  set (item := VObj fields).
  destruct (item_date item) as [ | | | | d | | ]; cbn [bind]; try discriminate.
  destruct (truthy (field item "poster_path")) eqn:Hpp; cbn [bind].
  - destruct (ToString (field item "poster_path")) as [p | e]; cbn [bind];
      [ | discriminate ].
    destruct (call_toString (field item "id")) as [id_string | e]; cbn [bind];
      [ | discriminate ].
    intros [= <-]. exists d. cbn.
    repeat split; try reflexivity. exists p. split; reflexivity.
  - destruct (call_toString (field item "id")) as [id_string | e]; cbn [bind];
      [ | discriminate ].
    intros [= <-]. exists d. cbn. repeat split; reflexivity.
Qed.

(** *** The fetcher and the two operations, run against a network *)

Lemma fetchTMDB_run (endpoint : string) (params : list (string * string)) (net : network) :
  exists data, fetchTMDB endpoint params net = ([request_of endpoint params], Ok data).
Proof.
  unfold fetchTMDB, io_bind, fetch, io_ret, request_of. cbn.
  destruct (net _) as [ | | [json | ] ]; eexists; reflexivity.
Qed.

Lemma getMovieList_run (type tag : string) (page : number) (limit : option number)
    (net : network) (data : value) :
  snd (list_fetch type tag page net) = Ok data ->
  getMovieList type (Some tag) (Some page) limit net =
  ([request_of (getMovieList_endpoint type tag) [("page", num_toString page)]],
   if negb (truthy data) then Ok []
   else if negb (truthy (field data "results")) then Ok []
        else call_map (field data "results") normalizeToDouban).
Proof.
  unfold list_fetch, getMovieList. intros Hdata.
  destruct (fetchTMDB_run (getMovieList_endpoint type tag)
              [("page", num_toString page)] net) as [data' Hrun].
  rewrite Hrun in Hdata. cbn in Hdata. injection Hdata as ->.
  unfold io_bind. rewrite Hrun. unfold io_ret. cbn [app].
  f_equal.
  destruct data; reflexivity.
Qed.

Lemma searchMovies_filter (items : list value) :
  filterM (fun i =>
             media_type <- get i "media_type" ;;
             if strict_eq_str media_type "movie" then Ok true
             else media_type <- get i "media_type" ;;
                  Ok (strict_eq_str media_type "tv")) items =
  (if forallb (fun i => negb (nullish i)) items
   then Ok (filter movie_or_tv items)
   else Throw TypeError).
Proof.
  induction items as [ | i rest IH ]; [ reflexivity | ].
  cbn [filterM forallb filter]. rewrite IH. clear IH.
  destruct i as [ | | b | n | s | elems | fields ];
    cbn [get bind nullish negb andb]; try reflexivity;
    try (destruct (forallb (fun i => negb (nullish i)) rest); reflexivity).
  change (movie_or_tv (VObj fields))
    with (strict_eq_str (lookup "media_type" fields) "movie"
          || strict_eq_str (lookup "media_type" fields) "tv").
  destruct (strict_eq_str (lookup "media_type" fields) "movie"); cbn [bind orb];
    [ | destruct (strict_eq_str (lookup "media_type" fields) "tv") ];
    destruct (forallb (fun i => negb (nullish i)) rest); reflexivity.
Qed.

Lemma searchMovies_run (query : string) (page : number) (net : network) (data : value) :
  snd (search_fetch query page net) = Ok data ->
  searchMovies query (Some page) net =
  ([request_of "/search/multi" [("query", query); ("page", num_toString page)]],
   if negb (truthy data) then Ok []
   else if negb (truthy (field data "results")) then Ok []
        else match field data "results" with
             | VArr items =>
                 if forallb (fun i => negb (nullish i)) items
                 then mapM normalizeToDouban (filter movie_or_tv items)
                 else Throw TypeError
             | _ => Throw TypeError
             end).
Proof.
  unfold search_fetch, searchMovies. intros Hdata.
  destruct (fetchTMDB_run "/search/multi"
              [("query", query); ("page", num_toString page)] net) as [data' Hrun].
  rewrite Hrun in Hdata. cbn in Hdata. injection Hdata as ->.
  unfold io_bind. rewrite Hrun. unfold io_ret. cbn [app].
  f_equal.
  destruct data; try reflexivity.
  cbn [get field bind truthy negb].
  destruct (truthy (lookup "results" fields)); cbn [negb]; [ | reflexivity ].
  destruct (lookup "results" fields) as [ | | b | n | s | items | fs ]; try reflexivity.
  cbn [call_filter]. rewrite searchMovies_filter.
  destruct (forallb (fun i => negb (nullish i)) items); reflexivity.
Qed.

Lemma getMovieList_run_default (type : string) (tag : option string)
    (page limit : option number) (net : network) (data : value) :
  snd (list_fetch type (tag_or_hot tag) (page_or_first page) net) = Ok data ->
  getMovieList type tag page limit net =
  ([request_of (getMovieList_endpoint type (tag_or_hot tag))
      [("page", num_toString (page_or_first page))]],
   if negb (truthy data) then Ok []
   else if negb (truthy (field data "results")) then Ok []
        else call_map (field data "results") normalizeToDouban).
Proof.
  intros Hdata.
  exact (getMovieList_run type (tag_or_hot tag) (page_or_first page) limit net data Hdata).
Qed.

Lemma searchMovies_run_default (query : string) (page : option number)
    (net : network) (data : value) :
  snd (search_fetch query (page_or_first page) net) = Ok data ->
  searchMovies query page net =
  ([request_of "/search/multi"
      [("query", query); ("page", num_toString (page_or_first page))]],
   if negb (truthy data) then Ok []
   else if negb (truthy (field data "results")) then Ok []
        else match field data "results" with
             | VArr items =>
                 if forallb (fun i => negb (nullish i)) items
                 then mapM normalizeToDouban (filter movie_or_tv items)
                 else Throw TypeError
             | _ => Throw TypeError
             end).
Proof.
  intros Hdata.
  exact (searchMovies_run query (page_or_first page) net data Hdata).
Qed.

Lemma getMovieList_request (type : string) (tag : option string)
    (page limit : option number) (net : network) :
  fst (getMovieList type tag page limit net) =
  [request_of
     (getMovieList_endpoint type (match tag with Some t => t | None => "hot" end))
     [("page", num_toString (match page with Some p => p | None => num_lit 1 end))]].
Proof.
  unfold getMovieList, io_bind.
  destruct (fetchTMDB_run
              (getMovieList_endpoint type (match tag with Some t => t | None => "hot" end))
              [("page", num_toString (match page with Some p => p | None => num_lit 1 end))]
              net) as [data ->].
  reflexivity.
Qed.

Lemma lookup_absent (k : string) (fields : list (string * value)) :
  has_own k fields = false -> lookup k fields = VUndefined.
Proof.
  induction fields as [ | [k' v] rest IH ]; [ reflexivity | ].
  cbn [has_own existsb lookup fst]. destruct (String.eqb k k'); cbn [orb].
  - discriminate.
  - exact IH.
Qed.


Lemma call_map_total (results : value) :
  truthy results = true ->
  if match results with
     | VArr items => forallb well_formed_item items
     | _ => false
     end
  then exists rs, call_map results normalizeToDouban = Ok rs
  else call_map results normalizeToDouban = Throw TypeError.
Proof.
  intros Htruthy.
  destruct results as [ | | b | n | s | items | fields ]; try reflexivity.
  apply mapM_total. apply normalizeToDouban_total.
Qed.

(** * Properties of the adapter *)

(** C1 (amended).  [normalizeToDouban] produces a record exactly on the
    well-formed items: objects whose [id] is neither [undefined] nor [null]
    and prints without an exception, whose date ([release_date], else
    [first_air_date]) is a string or falsy, and whose [poster_path] is falsy
    or printable.  On those, a missing or otherwise falsy field defaults to
    the empty string, to zero or to the placeholder image URL; and an item
    that carries nothing but such an identifier yields the placeholder
    image, rating zero and empty year, title, original title and summary. *)
Theorem normalizeToDouban_total_on_well_formed_items :
  (forall item,
      well_formed_item item = true <-> exists r, normalizeToDouban item = Ok r)
  /\ (forall item r,
        normalizeToDouban item = Ok r ->
        (truthy (field item "title") = false ->
         truthy (field item "name") = false -> title r = VStr "")
        /\ (truthy (field item "original_title") = false ->
            truthy (field item "original_name") = false ->
            original_title r = VStr "")
        /\ (truthy (field item "release_date") = false ->
            truthy (field item "first_air_date") = false -> year r = VStr "")
        /\ (truthy (field item "poster_path") = false ->
            large (images r) = NO_COVER_URL)
        /\ (truthy (field item "vote_average") = false ->
            average (rating r) = VNum (num_lit 0))
        /\ (truthy (field item "overview") = false -> summary r = VStr ""))
  /\ (forall v,
        nullish v = false -> stringifiable v = true ->
        exists s,
          call_toString v = Ok s
          /\ normalizeToDouban (VObj [("id", v)]) =
             Ok {| id := s;
                   title := VStr "";
                   original_title := VStr "";
                   year := VStr "";
                   images := {| large := NO_COVER_URL;
                                medium := Some NO_COVER_URL;
                                small := Some NO_COVER_URL |};
                   rating := {| average := VNum (num_lit 0) |};
                   genres := [];
                   casts := [];
                   directors := [];
                   summary := VStr "" |}).
Proof.
  split; [ | split ].
  - intros item. split.
    + apply normalizeToDouban_ok.
    + intros [r Hr]. exact (normalizeToDouban_ok_inv item r Hr).
  - intros item r Hr.
    destruct (normalizeToDouban_inv item r Hr)
      as (d & Hdate & _ & Htitle & Horig & Hyear & Hposter & _ & _ & Hrating & _ & _ & _ & Hsum).
    repeat split.
    + intros Ht Hn. rewrite Htitle. unfold movie_then_series. rewrite Ht, Hn. reflexivity.
    + intros Ht Hn. rewrite Horig. unfold movie_then_series. rewrite Ht, Hn. reflexivity.
    + intros Hrd Hfad. rewrite Hyear.
      unfold item_date, movie_then_series in Hdate. rewrite Hrd, Hfad in Hdate.
      injection Hdate as <-. reflexivity.
    + intros Hpp. rewrite Hpp in Hposter. exact Hposter.
    + intros Hva. rewrite Hrating, Hva. reflexivity.
    + intros Hov. rewrite Hsum, Hov. reflexivity.
  - intros v Hnull Hprint.
    pose proof (call_toString_total v) as Hid. rewrite Hnull, Hprint in Hid.
    destruct Hid as [s Hs]. exists s. split; [ exact Hs | ].
    rewrite normalizeToDouban_object. cbn. rewrite Hs. reflexivity.
Qed.

(** C2.  In [getMovieList] the tags [hot] and [热门] select the popular
    endpoint of the media kind, [latest] and [最新] select now-playing for
    movies and on-the-air for series, [top250] and [high_score] select the
    top-rated endpoint, every other tag falls back to the popular endpoint,
    an omitted tag counts as [hot], and the one request the operation issues
    goes to the selected endpoint. *)
Theorem getMovieList_tag_mapping (type tag : string) :
  (tag = "hot" \/ tag = "热门" ->
   getMovieList_endpoint type tag = "/" ++ media_kind type ++ "/popular")
  /\ (tag = "latest" \/ tag = "最新" ->
      getMovieList_endpoint type tag =
      if String.eqb type "tv" then "/tv/on_the_air" else "/movie/now_playing")
  /\ (tag = "top250" \/ tag = "high_score" ->
      getMovieList_endpoint type tag = "/" ++ media_kind type ++ "/top_rated")
  /\ (tag <> "hot" -> tag <> "热门" -> tag <> "latest" -> tag <> "最新" ->
      tag <> "top250" -> tag <> "high_score" ->
      getMovieList_endpoint type tag = "/" ++ media_kind type ++ "/popular")
  /\ (forall page limit net,
        exists req,
          fst (getMovieList type (Some tag) page limit net) = [req]
          /\ url req = TMDB_BASE_URL ++ getMovieList_endpoint type tag)
  /\ (forall page limit net,
        getMovieList type None page limit net =
        getMovieList type (Some "hot") page limit net).
Proof.
  unfold getMovieList_endpoint, media_kind.
  repeat split.
  - intros [-> | ->]; destruct (String.eqb type "tv"); reflexivity.
  - intros [-> | ->]; destruct (String.eqb type "tv"); reflexivity.
  - intros [-> | ->]; destruct (String.eqb type "tv"); reflexivity.
  - intros H1 H2 H3 H4 H5 H6.
    apply String.eqb_neq in H1, H2, H3, H4, H5, H6.
    rewrite H1, H2, H3, H4, H5, H6.
    destruct (String.eqb type "tv"); reflexivity.
  - intros page limit net. eexists. split.
    + apply getMovieList_request.
    + reflexivity.
Qed.

(** C3 (amended).  The fetcher always returns a value, and on it
    [getMovieList] and [searchMovies], called with or without their
    optional [tag] and [page], return a sequence of normalized records,
    throwing nothing, exactly when the response is acceptable: it is falsy,
    or its [results] property is missing or falsy, or [results] is an array
    whose items ([getMovieList]: all of them; [searchMovies]: none of them
    [null], and those of media type movie or tv) are well-formed items for
    the normalizer.  On every other response they throw a [TypeError]. *)
Theorem operations_complete_on_acceptable_responses :
  (forall type tag page net, exists data, snd (list_fetch type tag page net) = Ok data)
  /\ (forall query page net, exists data, snd (search_fetch query page net) = Ok data)
  /\ (forall type (tag : option string) (page limit : option number) net data,
        snd (list_fetch type (tag_or_hot tag) (page_or_first page) net) = Ok data ->
        (list_response_ok data = true <->
         exists rs, snd (getMovieList type tag page limit net) = Ok rs)
        /\ (list_response_ok data = false ->
            snd (getMovieList type tag page limit net) = Throw TypeError))
  /\ (forall query (page : option number) net data,
        snd (search_fetch query (page_or_first page) net) = Ok data ->
        (search_response_ok data = true <->
         exists rs, snd (searchMovies query page net) = Ok rs)
        /\ (search_response_ok data = false ->
            snd (searchMovies query page net) = Throw TypeError)).
Proof.
  split; [ | split; [ | split ] ].
  - intros type tag page net. unfold list_fetch.
    destruct (fetchTMDB_run (getMovieList_endpoint type tag)
                [("page", num_toString page)] net) as [data ->].
    exists data. reflexivity.
  - intros query page net. unfold search_fetch.
    destruct (fetchTMDB_run "/search/multi"
                [("query", query); ("page", num_toString page)] net) as [data ->].
    exists data. reflexivity.
  - intros type tag page limit net data Hdata.
    rewrite (getMovieList_run_default type tag page limit net data Hdata). cbn [snd].
    unfold list_response_ok.
    destruct (truthy data); cbn [negb orb].
    2:{ split; [ split; [ intros _; eexists; reflexivity | reflexivity ] | discriminate ]. }
    destruct (truthy (field data "results")) eqn:Hres; cbn [negb orb].
    2:{ split; [ split; [ intros _; eexists; reflexivity | reflexivity ] | discriminate ]. }
    pose proof (call_map_total (field data "results") Hres) as Hmap.
    destruct (match field data "results" with
              | VArr items => forallb well_formed_item items
              | _ => false
              end).
    + split; [ split; [ intros _; exact Hmap | reflexivity ] | discriminate ].
    + rewrite Hmap.
      split; [ split; [ discriminate | intros [rs Hrs]; discriminate ] | reflexivity ].
  - intros query page net data Hdata.
    rewrite (searchMovies_run_default query page net data Hdata). cbn [snd].
    unfold search_response_ok.
    destruct (truthy data); cbn [negb orb].
    2:{ split; [ split; [ intros _; eexists; reflexivity | reflexivity ] | discriminate ]. }
    destruct (truthy (field data "results")) eqn:Hres; cbn [negb orb].
    2:{ split; [ split; [ intros _; eexists; reflexivity | reflexivity ] | discriminate ]. }
    destruct (field data "results") as [ | | b | n | s | items | fields ];
      try (split; [ split; [ discriminate | intros [rs Hrs]; discriminate ]
                  | reflexivity ]).
    destruct (forallb (fun i => negb (nullish i)) items); cbn [andb].
    2:{ split; [ split; [ discriminate | intros [rs Hrs]; discriminate ] | reflexivity ]. }
    pose proof (mapM_total normalizeToDouban well_formed_item
                  (filter movie_or_tv items) normalizeToDouban_total) as Hmap.
    destruct (forallb well_formed_item (filter movie_or_tv items)).
    + split; [ split; [ intros _; exact Hmap | reflexivity ] | discriminate ].
    + rewrite Hmap.
      split; [ split; [ discriminate | intros [rs Hrs]; discriminate ] | reflexivity ].
Qed.

(** C4 (amended).  When the response carries a [results] array,
    [searchMovies], called with or without its optional [page], returns
    records exactly when no result is [null] or [undefined] and each result
    whose [media_type] is ['movie'] or ['tv'] normalizes; the returned
    records are then, in order, the normalized forms of precisely those
    results, every result of another media kind being discarded before
    normalization.  A [null] or [undefined] result is not discarded: it
    makes the call throw. *)
Theorem searchMovies_keeps_movie_and_tv
    (query : string) (page : option number) (net : network) (data : value)
    (items : list value) :
  snd (search_fetch query (page_or_first page) net) = Ok data ->
  field data "results" = VArr items ->
  (forall i,
      In i (filter movie_or_tv items) <->
      In i items /\ (field i "media_type" = VStr "movie"
                     \/ field i "media_type" = VStr "tv"))
  /\ (forall rs,
        snd (searchMovies query page net) = Ok rs <->
        Forall (fun i => nullish i = false) items
        /\ Forall2 (fun i r => normalizeToDouban i = Ok r)
                   (filter movie_or_tv items) rs)
  /\ (Forall (fun i => nullish i = false) items ->
      forallb well_formed_item (filter movie_or_tv items) = true ->
      exists rs,
        snd (searchMovies query page net) = Ok rs
        /\ Forall2 (fun i r => normalizeToDouban i = Ok r)
                   (filter movie_or_tv items) rs)
  /\ (forall i,
        In i items -> nullish i = true ->
        snd (searchMovies query page net) = Throw TypeError).
Proof.
  intros Hdata Hresults.
  assert (Hobj : truthy data = true).
  { destruct data; try discriminate. reflexivity. }
  assert (Hnonnull : Forall (fun i => nullish i = false) items <->
                     forallb (fun i => negb (nullish i)) items = true).
  { rewrite Forall_forall, forallb_forall. split; intros Hall i Hi.
    - rewrite (Hall i Hi). reflexivity.
    - specialize (Hall i Hi). destruct (nullish i); [ discriminate | reflexivity ]. }
  rewrite (searchMovies_run_default query page net data Hdata). cbn [snd].
  rewrite Hobj, Hresults. cbn [negb truthy].
  split; [ | split; [ | split ] ].
  - intros i. rewrite filter_In. unfold movie_or_tv.
    rewrite orb_true_iff.
    assert (Heq : forall lit, strict_eq_str (field i "media_type") lit = true
                              <-> field i "media_type" = VStr lit).
    { intros lit. destruct (field i "media_type"); cbn [strict_eq_str];
        try (split; discriminate).
      rewrite String.eqb_eq. split; [ intros ->; reflexivity | intros [= ->]; reflexivity ]. }
    rewrite !Heq. reflexivity.
  - intros rs. rewrite <- mapM_Forall2, Hnonnull.
    destruct (forallb (fun i => negb (nullish i)) items).
    + split; [ intros Hrs; split; [ reflexivity | exact Hrs ] | intros [_ Hrs]; exact Hrs ].
    + split; [ discriminate | intros [Hfalse _]; discriminate ].
  - intros Hall Hkept. apply Hnonnull in Hall. rewrite Hall.
    pose proof (mapM_total normalizeToDouban well_formed_item
                  (filter movie_or_tv items) normalizeToDouban_total) as Hmap.
    rewrite Hkept in Hmap. destruct Hmap as [rs Hrs].
    exists rs. split; [ exact Hrs | apply mapM_Forall2; exact Hrs ].
  - intros i Hin Hnull.
    destruct (forallb (fun i => negb (nullish i)) items) eqn:Hall; [ | reflexivity ].
    rewrite forallb_forall in Hall. specialize (Hall i Hin).
    rewrite Hnull in Hall. discriminate.
Qed.

(** C5 (amended).  Whenever the fetcher returns [null] or another falsy
    value, or a response whose [results] property is missing or falsy,
    [getMovieList] and [searchMovies], called with or without their
    optional [tag] and [page], both return the empty sequence and throw
    nothing; and the fetcher returns [null] whenever the request fails, the
    status is not a success, or the body is not JSON. *)
Theorem empty_on_absent_or_falsy_results (data : value) :
  (data = VNull
   \/ truthy data = false
   \/ (exists fields, data = VObj fields /\ has_own "results" fields = false)
   \/ truthy (field data "results") = false) ->
  (forall type (tag : option string) (page limit : option number) net,
      snd (list_fetch type (tag_or_hot tag) (page_or_first page) net) = Ok data ->
      snd (getMovieList type tag page limit net) = Ok [])
  /\ (forall query (page : option number) net,
        snd (search_fetch query (page_or_first page) net) = Ok data ->
        snd (searchMovies query page net) = Ok [])
  /\ (forall endpoint params net,
        (net (request_of endpoint params) = NetworkError
         \/ net (request_of endpoint params) = HttpError
         \/ net (request_of endpoint params) = HttpOk None) ->
        snd (fetchTMDB endpoint params net) = Ok VNull).
Proof.
  intros Hshape.
  assert (Hfalsy : truthy data = false \/ truthy (field data "results") = false).
  { destruct Hshape as [-> | [Hd | [(fields & -> & Hown) | Hr] ] ].
    - left. reflexivity.
    - left. exact Hd.
    - right. cbn [field]. rewrite (lookup_absent "results" fields Hown). reflexivity.
    - right. exact Hr. }
  clear Hshape. split; [ | split ].
  - intros type tag page limit net Hdata.
    rewrite (getMovieList_run_default type tag page limit net data Hdata). cbn [snd].
    destruct Hfalsy as [-> | Hr]; [ reflexivity | ].
    rewrite Hr. destruct (truthy data); reflexivity.
  - intros query page net Hdata.
    rewrite (searchMovies_run_default query page net data Hdata). cbn [snd].
    destruct Hfalsy as [-> | Hr]; [ reflexivity | ].
    rewrite Hr. destruct (truthy data); reflexivity.
  - intros endpoint params net Hnet.
    unfold fetchTMDB, io_bind, fetch, io_ret.
    change {| url := TMDB_BASE_URL ++ endpoint;
              searchParams :=
                ([("api_key", match TMDB_API_KEY with Some k => k | None => "" end);
                  ("language", "zh-CN")] ++ params)%list |}
      with (request_of endpoint params).
    destruct Hnet as [-> | [-> | ->] ]; reflexivity.
Qed.


(** C7.  Every well-formed item yields a record, and in a produced record
    the title is the item's [title] when that is truthy and otherwise falls
    back to [name]; the original title is [original_title], falling back to
    [original_name]; and the year is cut from [release_date], falling back
    to [first_air_date].  A truthy movie-style field always wins over the
    series-style one. *)
Theorem movie_key_first_then_series_key (item : value) :
  let reads (r : DoubanSubject) :=
    (truthy (field item "title") = true -> title r = field item "title")
    /\ (truthy (field item "title") = false ->
        truthy (field item "name") = true -> title r = field item "name")
    /\ (truthy (field item "original_title") = true ->
        original_title r = field item "original_title")
    /\ (truthy (field item "original_title") = false ->
        truthy (field item "original_name") = true ->
        original_title r = field item "original_name")
    /\ (truthy (field item "release_date") = true ->
        exists d, field item "release_date" = VStr d
                  /\ year r = VStr (truncate_at "-"%char d))
    /\ (truthy (field item "release_date") = false ->
        truthy (field item "first_air_date") = true ->
        exists d, field item "first_air_date" = VStr d
                  /\ year r = VStr (truncate_at "-"%char d)) in
  (well_formed_item item = true ->
   exists r, normalizeToDouban item = Ok r /\ reads r)
  /\ (forall r, normalizeToDouban item = Ok r -> reads r).
Proof.
  intros reads.
  assert (Hreads : forall r, normalizeToDouban item = Ok r -> reads r).
  { intros r Hr.
    destruct (normalizeToDouban_inv item r Hr)
      as (d & Hdate & _ & Htitle & Horig & Hyear & _).
    unfold item_date, movie_then_series in *.
    unfold reads. repeat split.
    - intros Ht. rewrite Htitle, Ht. reflexivity.
    - intros Ht Hn. rewrite Htitle, Ht, Hn. reflexivity.
    - intros Ht. rewrite Horig, Ht. reflexivity.
    - intros Ht Hn. rewrite Horig, Ht, Hn. reflexivity.
    - intros Hrd. rewrite Hrd in Hdate. exists d. split; assumption.
    - intros Hrd Hfad. rewrite Hrd, Hfad in Hdate. exists d. split; assumption. }
  split.
  - intros Hwf. destruct (normalizeToDouban_ok item Hwf) as [r Hr].
    exists r. split; [ exact Hr | exact (Hreads r Hr) ].
  - exact Hreads.
Qed.


(** C9.  [getMovieList] does not use its [limit] parameter: for every type,
    tag, page and network, any two limits give the same issued requests and
    the same result. *)
Theorem getMovieList_ignores_limit
    (type : string) (tag : option string) (page limit1 limit2 : option number)
    (net : network) :
  getMovieList type tag page limit1 net = getMovieList type tag page limit2 net.
Proof. reflexivity. Qed.

(** C10.  Only the type ['tv'] selects the series endpoints; every other
    type string, ['series'] and ['movie'] included, is treated as a movie:
    its endpoint is one of the three movie endpoints and [getMovieList]
    issues the same request as for ['movie'].  The one request
    [getMovieList] issues, whatever the tag, goes to a movie endpoint for
    every type other than ['tv'] and to a series endpoint for ['tv']. *)
Theorem getMovieList_type_defaults_to_movie (type tag : string) :
  (type <> "tv" ->
   getMovieList_endpoint type tag = getMovieList_endpoint "movie" tag
   /\ In (getMovieList_endpoint type tag)
         ["/movie/popular"; "/movie/now_playing"; "/movie/top_rated"]
   /\ forall page limit net,
        fst (getMovieList type (Some tag) page limit net) =
        fst (getMovieList "movie" (Some tag) page limit net))
  /\ (type = "tv" ->
      In (getMovieList_endpoint type tag)
         ["/tv/popular"; "/tv/on_the_air"; "/tv/top_rated"])
  /\ getMovieList_endpoint "series" tag = getMovieList_endpoint "movie" tag
  /\ (type <> "tv" ->
      forall (tag' : option string) page limit net,
      exists req,
        fst (getMovieList type tag' page limit net) = [req]
        /\ In (url req)
              [TMDB_BASE_URL ++ "/movie/popular";
               TMDB_BASE_URL ++ "/movie/now_playing";
               TMDB_BASE_URL ++ "/movie/top_rated"])
  /\ (type = "tv" ->
      forall (tag' : option string) page limit net,
      exists req,
        fst (getMovieList type tag' page limit net) = [req]
        /\ In (url req)
              [TMDB_BASE_URL ++ "/tv/popular";
               TMDB_BASE_URL ++ "/tv/on_the_air";
               TMDB_BASE_URL ++ "/tv/top_rated"]).
Proof.
  assert (Hmovie : forall ty t, String.eqb ty "tv" = false ->
                                getMovieList_endpoint ty t =
                                getMovieList_endpoint "movie" t).
  { intros ty t Hty. unfold getMovieList_endpoint. rewrite Hty. reflexivity. }
  assert (Hin : forall ty t,
             In (getMovieList_endpoint ty t)
                (if String.eqb ty "tv"
                 then ["/tv/popular"; "/tv/on_the_air"; "/tv/top_rated"]
                 else ["/movie/popular"; "/movie/now_playing"; "/movie/top_rated"])).
  { intros ty t. unfold getMovieList_endpoint.
    destruct (String.eqb ty "tv");
      destruct (String.eqb t "hot" || String.eqb t "热门");
      destruct (String.eqb t "latest" || String.eqb t "最新");
      destruct (String.eqb t "top250" || String.eqb t "high_score");
      cbn; tauto. }
  assert (Hreq : forall (tag' : option string) page limit net,
             exists req,
               fst (getMovieList type tag' page limit net) = [req]
               /\ In (url req)
                     (map (fun e => TMDB_BASE_URL ++ e)
                        (if String.eqb type "tv"
                         then ["/tv/popular"; "/tv/on_the_air"; "/tv/top_rated"]
                         else ["/movie/popular"; "/movie/now_playing";
                               "/movie/top_rated"]))).
  { intros tag' page limit net. eexists. split.
    - apply getMovieList_request.
    - cbn [url request_of]. apply in_map. apply Hin. }
  split; [ | split; [ | split; [ | split ] ] ].
  - intros Hty. apply String.eqb_neq in Hty.
    split; [ | split ].
    + apply Hmovie. exact Hty.
    + specialize (Hin type tag). rewrite Hty in Hin. exact Hin.
    + intros page limit net. rewrite !getMovieList_request.
      rewrite (Hmovie type tag Hty). reflexivity.
  - intros ->. exact (Hin "tv" tag).
  - apply Hmovie. reflexivity.
  - intros Hty tag' page limit net. apply String.eqb_neq in Hty.
    specialize (Hreq tag' page limit net). rewrite Hty in Hreq. exact Hreq.
  - intros Hty tag' page limit net. subst type.
    exact (Hreq tag' page limit net).
Qed.

(** * Further properties of the adapter *)

Lemma fetchTMDB_eq (endpoint : string) (params : list (string * string)) (net : network) :
  fetchTMDB endpoint params net =
  ([request_of endpoint params],
   Ok (match net (request_of endpoint params) with
       | HttpOk (Some json) => json
       | _ => VNull
       end)).
Proof.
  unfold fetchTMDB, io_bind, fetch, io_ret.
  change {| url := TMDB_BASE_URL ++ endpoint;
            searchParams :=
              ([("api_key", match TMDB_API_KEY with Some k => k | None => "" end);
                ("language", "zh-CN")] ++ params)%list |}
    with (request_of endpoint params).
  destruct (net (request_of endpoint params)) as [ | | [json | ] ]; reflexivity.
Qed.

Lemma searchMovies_request (query : string) (page : option number) (net : network) :
  fst (searchMovies query page net) =
  [request_of "/search/multi"
     [("query", query);
      ("page", num_toString (match page with Some p => p | None => num_lit 1 end))]].
Proof.
  unfold searchMovies, io_bind. rewrite fetchTMDB_eq. reflexivity.
Qed.

Lemma truthy_not_nullish (v : value) : truthy v = true -> nullish v = false.
Proof. destruct v; cbn; congruence. Qed.

Lemma mapM_length {A B : Type} (f : A -> result B) (l : list A) (ys : list B) :
  mapM f l = Ok ys -> length ys = length l.
Proof.
  intros Hys. apply mapM_Forall2 in Hys.
  symmetry. exact (Forall2_length Hys).
Qed.

(** X1.  Whatever the network answers, and whether or not the operation
    then throws, [getMovieList] and [searchMovies] each issue exactly one
    request: to the base URL followed by the endpoint, with the API key
    (empty when unset) first, then the locale [zh-CN], then the caller's
    parameters ([page]; [query] and [page]) in that order. *)
Theorem operations_issue_exactly_one_request :
  (forall type tag page limit net,
      fst (getMovieList type tag page limit net) =
      [{| url := TMDB_BASE_URL
                 ++ getMovieList_endpoint type
                      (match tag with Some t => t | None => "hot" end);
          searchParams :=
            [("api_key", match TMDB_API_KEY with Some k => k | None => "" end);
             ("language", "zh-CN");
             ("page", num_toString (match page with Some p => p | None => num_lit 1 end))]
       |}])
  /\ (forall query page net,
        fst (searchMovies query page net) =
        [{| url := TMDB_BASE_URL ++ "/search/multi";
            searchParams :=
              [("api_key", match TMDB_API_KEY with Some k => k | None => "" end);
               ("language", "zh-CN");
               ("query", query);
               ("page", num_toString (match page with Some p => p | None => num_lit 1 end))]
         |}]).
Proof.
  split.
  - intros type tag page limit net. rewrite getMovieList_request. reflexivity.
  - intros query page net. rewrite searchMovies_request. reflexivity.
Qed.

(** X2.  The fetcher never throws and never makes data up: what it returns
    is [null] when the request failed, the status was not a success or the
    body was not JSON, and otherwise the parsed body, unchanged.  So a
    value other than [null] can only come from a successful response. *)
Theorem fetchTMDB_returns_body_or_null
    (endpoint : string) (params : list (string * string)) (net : network) :
  exists data,
    fetchTMDB endpoint params net = ([request_of endpoint params], Ok data)
    /\ (is_failure (net (request_of endpoint params)) = true -> data = VNull)
    /\ (forall json, net (request_of endpoint params) = HttpOk (Some json) -> data = json)
    /\ (data <> VNull -> net (request_of endpoint params) = HttpOk (Some data)).
Proof.
  rewrite fetchTMDB_eq. eexists. split; [ reflexivity | ].
  destruct (net (request_of endpoint params)) as [ | | [json | ] ]; cbn [is_failure].
  - repeat split; try discriminate; try reflexivity. intros Hd. congruence.
  - repeat split; try discriminate; try reflexivity. intros Hd. congruence.
  - repeat split.
    + discriminate.
    + intros json' [= ->]. reflexivity.
  - repeat split; try discriminate; try reflexivity. intros Hd. congruence.
Qed.

(** X3.  On a response with a [results] array, [getMovieList], called with
    or without its optional [tag] and [page], returns records exactly when
    every result normalizes, and then returns one
    record per result, in the order of the results; a single result the
    normalizer rejects makes the whole call throw, with no partial list. *)
Theorem getMovieList_maps_every_result
    (type : string) (tag : option string) (page limit : option number)
    (net : network) (data : value) (items : list value) :
  snd (list_fetch type (tag_or_hot tag) (page_or_first page) net) = Ok data ->
  field data "results" = VArr items ->
  (forall rs,
      snd (getMovieList type tag page limit net) = Ok rs <->
      Forall2 (fun i r => normalizeToDouban i = Ok r) items rs)
  /\ (forall rs,
        snd (getMovieList type tag page limit net) = Ok rs ->
        length rs = length items)
  /\ (forall i,
        In i items -> well_formed_item i = false ->
        snd (getMovieList type tag page limit net) = Throw TypeError)
  /\ (forallb well_formed_item items = true ->
      exists rs,
        snd (getMovieList type tag page limit net) = Ok rs
        /\ Forall2 (fun i r => normalizeToDouban i = Ok r) items rs).
Proof.
  intros Hdata Hresults.
  assert (Hobj : truthy data = true).
  { destruct data; try discriminate. reflexivity. }
  rewrite (getMovieList_run_default type tag page limit net data Hdata). cbn [snd].
  rewrite Hobj, Hresults. cbn [negb truthy call_map].
  pose proof (mapM_total normalizeToDouban well_formed_item items
                normalizeToDouban_total) as Hmap.
  split; [ | split; [ | split ] ].
  - intros rs. apply mapM_Forall2.
  - intros rs. apply mapM_length.
  - intros i Hin Hbad.
    destruct (forallb well_formed_item items) eqn:Hall; [ | exact Hmap ].
    rewrite forallb_forall in Hall. rewrite (Hall i Hin) in Hbad. discriminate.
  - intros Hall. rewrite Hall in Hmap. destruct Hmap as [rs Hrs].
    exists rs. split; [ exact Hrs | apply mapM_Forall2; exact Hrs ].
Qed.

(** X4.  Searching is listing after discarding: when no search result is
    [null] or [undefined], [searchMovies] returns what [getMovieList]
    returns for a response whose results are the search results of media
    type movie or tv, be it a list of records or an exception, whichever
    optional arguments the two calls are given. *)
Theorem searchMovies_as_getMovieList_of_kept_results
    (query : string) (page : option number) (net : network)
    (type : string) (tag : option string) (page' limit : option number)
    (net' : network) (data data' : value) (items : list value) :
  snd (search_fetch query (page_or_first page) net) = Ok data ->
  field data "results" = VArr items ->
  Forall (fun i => nullish i = false) items ->
  snd (list_fetch type (tag_or_hot tag) (page_or_first page') net') = Ok data' ->
  field data' "results" = VArr (filter movie_or_tv items) ->
  snd (searchMovies query page net) =
  snd (getMovieList type tag page' limit net').
Proof.
  intros Hdata Hresults Hnonnull Hdata' Hresults'.
  assert (Hobj : truthy data = true).
  { destruct data; try discriminate. reflexivity. }
  assert (Hobj' : truthy data' = true).
  { destruct data'; try discriminate. reflexivity. }
  rewrite (searchMovies_run_default query page net data Hdata).
  rewrite (getMovieList_run_default type tag page' limit net' data' Hdata').
  cbn [snd]. rewrite Hobj, Hobj', Hresults, Hresults'. cbn [negb truthy call_map].
  assert (Hall : forallb (fun i => negb (nullish i)) items = true).
  { apply forallb_forall. intros i Hi.
    rewrite Forall_forall in Hnonnull. rewrite (Hnonnull i Hi). reflexivity. }
  rewrite Hall. reflexivity.
Qed.

(** X5.  The normalizer looks at nothing but its ten properties: two
    objects that agree on [first_air_date], [title], [name],
    [original_title], [original_name], [release_date], [poster_path], [id],
    [vote_average] and [overview] normalize to the same record or both
    throw, whatever else ([media_type], [genre_ids], ...) they carry. *)
Theorem normalizeToDouban_reads_only_its_keys (fields fields' : list (string * value)) :
  (forall k, In k normalizer_keys -> lookup k fields = lookup k fields') ->
  normalizeToDouban (VObj fields) = normalizeToDouban (VObj fields').
Proof.
  intros Hsame.
  assert (Hkey : forall k, In k normalizer_keys ->
                           field (VObj fields) k = field (VObj fields') k).
  { intros k Hk. cbn [field]. apply Hsame. exact Hk. }
  rewrite !normalizeToDouban_object. unfold item_date.
  assert (Hin : forall k, existsb (String.eqb k) normalizer_keys = true ->
                          In k normalizer_keys).
  { intros k Hk. apply existsb_exists in Hk. destruct Hk as (k' & Hk' & Heq).
    apply String.eqb_eq in Heq. subst k'. exact Hk'. }
  rewrite (Hkey "title" (Hin "title" eq_refl)), (Hkey "name" (Hin "name" eq_refl)),
    (Hkey "original_title" (Hin "original_title" eq_refl)), (Hkey "original_name" (Hin "original_name" eq_refl)),
    (Hkey "release_date" (Hin "release_date" eq_refl)), (Hkey "first_air_date" (Hin "first_air_date" eq_refl)),
    (Hkey "poster_path" (Hin "poster_path" eq_refl)), (Hkey "id" (Hin "id" eq_refl)),
    (Hkey "vote_average" (Hin "vote_average" eq_refl)), (Hkey "overview" (Hin "overview" eq_refl)).
  reflexivity.
Qed.

(** X6.  No text or rating field of a produced record is [undefined] or
    [null]: the title, the original title and the summary are each a truthy
    value or the empty string, the year is a string, and the average is a
    truthy value or the number zero. *)
Theorem normalized_record_has_no_nullish_field (item : value) (r : DoubanSubject) :
  normalizeToDouban item = Ok r ->
  (truthy (title r) = true \/ title r = VStr "")
  /\ (truthy (original_title r) = true \/ original_title r = VStr "")
  /\ (exists y, year r = VStr y)
  /\ (truthy (average (rating r)) = true \/ average (rating r) = VNum (num_lit 0))
  /\ (truthy (summary r) = true \/ summary r = VStr "")
  /\ nullish (title r) = false
  /\ nullish (original_title r) = false
  /\ nullish (year r) = false
  /\ nullish (average (rating r)) = false
  /\ nullish (summary r) = false.
Proof.
  intros Hr.
  destruct (normalizeToDouban_inv item r Hr)
    as (d & _ & _ & Htitle & Horig & Hyear & _ & _ & _ & Hrating & _ & _ & _ & Hsum).
  assert (Hmts : forall a b,
             truthy (movie_then_series a b) = true \/ movie_then_series a b = VStr "").
  { intros a b. unfold movie_then_series.
    destruct (truthy a) eqn:Ha; [ left; exact Ha | ].
    destruct (truthy b) eqn:Hb; [ left; exact Hb | right; reflexivity ]. }
  assert (Hnn : forall v w, truthy v = true \/ v = w -> nullish w = false ->
                            nullish v = false).
  { intros v w [Hv | ->] Hw; [ apply truthy_not_nullish; exact Hv | exact Hw ]. }
  assert (Ht : truthy (title r) = true \/ title r = VStr "").
  { rewrite Htitle. apply Hmts. }
  assert (Ho : truthy (original_title r) = true \/ original_title r = VStr "").
  { rewrite Horig. apply Hmts. }
  assert (Ha : truthy (average (rating r)) = true
               \/ average (rating r) = VNum (num_lit 0)).
  { rewrite Hrating. cbn [average].
    destruct (truthy (field item "vote_average")) eqn:Hva;
      [ left; exact Hva | right; reflexivity ]. }
  assert (Hs : truthy (summary r) = true \/ summary r = VStr "").
  { rewrite Hsum.
    destruct (truthy (field item "overview")) eqn:Hov;
      [ left; exact Hov | right; reflexivity ]. }
  repeat split; try assumption.
  - exists (truncate_at "-"%char d). exact Hyear.
  - exact (Hnn _ _ Ht eq_refl).
  - exact (Hnn _ _ Ho eq_refl).
  - rewrite Hyear. reflexivity.
  - exact (Hnn _ _ Ha eq_refl).
  - exact (Hnn _ _ Hs eq_refl).
Qed.

(** X7.  Series detection has no visible effect on an item that has a
    release date: when [release_date] is truthy, two objects that agree on
    the normalizer's other properties normalize alike, whatever their
    [first_air_date]. *)
Theorem first_air_date_ignored_when_released (fields fields' : list (string * value)) :
  truthy (lookup "release_date" fields) = true ->
  (forall k, In k normalizer_keys -> k <> "first_air_date" ->
             lookup k fields = lookup k fields') ->
  normalizeToDouban (VObj fields) = normalizeToDouban (VObj fields').
Proof.
  intros Hrd Hsame.
  assert (Hkey : forall k, In k normalizer_keys -> k <> "first_air_date" ->
                           field (VObj fields) k = field (VObj fields') k).
  { intros k Hk Hne. cbn [field]. apply Hsame; assumption. }
  assert (Hother : forall k,
             existsb (String.eqb k) normalizer_keys = true ->
             String.eqb k "first_air_date" = false ->
             field (VObj fields) k = field (VObj fields') k).
  { intros k Hk Hne. apply Hkey.
    - apply existsb_exists in Hk. destruct Hk as (k' & Hk' & Heq).
      apply String.eqb_eq in Heq. subst k'. exact Hk'.
    - apply String.eqb_neq. exact Hne. }
  assert (Hdate : item_date (VObj fields) = item_date (VObj fields')).
  { unfold item_date, movie_then_series.
    rewrite <- (Hother "release_date" eq_refl eq_refl).
    cbn [field]. rewrite Hrd. reflexivity. }
  rewrite !normalizeToDouban_object. rewrite Hdate.
  rewrite (Hother "title" eq_refl eq_refl), (Hother "name" eq_refl eq_refl),
    (Hother "original_title" eq_refl eq_refl),
    (Hother "original_name" eq_refl eq_refl),
    (Hother "poster_path" eq_refl eq_refl), (Hother "id" eq_refl eq_refl),
    (Hother "vote_average" eq_refl eq_refl), (Hother "overview" eq_refl eq_refl).
  reflexivity.
Qed.

(** X8.  A failed request cannot be told from an empty listing: when one
    network fails (no connection, a non-success status, or a body that is
    not JSON) and another answers with an empty [results] array, both
    operations return the same thing on the two, the empty sequence. *)
Theorem failure_indistinguishable_from_no_results
    (net net' : network) (fields : list (string * value)) :
  (forall req, is_failure (net req) = true) ->
  (forall req, net' req = HttpOk (Some (VObj fields))) ->
  lookup "results" fields = VArr [] ->
  (forall type tag page limit,
      getMovieList type tag page limit net = getMovieList type tag page limit net'
      /\ snd (getMovieList type tag page limit net) = Ok [])
  /\ (forall query page,
        searchMovies query page net = searchMovies query page net'
        /\ snd (searchMovies query page net) = Ok []).
Proof.
  intros Hfail Hempty Hresults.
  assert (Hnull : forall endpoint params,
             fetchTMDB endpoint params net = ([request_of endpoint params], Ok VNull)).
  { intros endpoint params. rewrite fetchTMDB_eq.
    specialize (Hfail (request_of endpoint params)).
    destruct (net (request_of endpoint params)) as [ | | [json | ] ];
      [ reflexivity | reflexivity | discriminate | reflexivity ]. }
  assert (Hobj : forall endpoint params,
             fetchTMDB endpoint params net' =
             ([request_of endpoint params], Ok (VObj fields))).
  { intros endpoint params. rewrite fetchTMDB_eq, Hempty. reflexivity. }
  split.
  - intros type tag page limit.
    unfold getMovieList, io_bind. rewrite Hnull, Hobj.
    cbn [io_ret truthy negb get bind]. rewrite Hresults. split; reflexivity.
  - intros query page.
    unfold searchMovies, io_bind. rewrite Hnull, Hobj.
    cbn [io_ret truthy negb get bind]. rewrite Hresults. split; reflexivity.
Qed.

(** X9.  The identifier survives normalization: a produced record's [id] is
    the item's [id] itself when that is a string, its printed form when it
    is a number, and [true] or [false] for a boolean; and an item whose
    [id] is missing or [null] never yields a record. *)
Theorem normalized_id_is_printed_item_id (item : value) (r : DoubanSubject) :
  normalizeToDouban item = Ok r ->
  nullish (field item "id") = false
  /\ (forall s, field item "id" = VStr s -> id r = s)
  /\ (forall n, field item "id" = VNum n -> id r = num_toString n)
  /\ (forall b, field item "id" = VBool b -> id r = if b then "true" else "false").
Proof.
  intros Hr.
  destruct (normalizeToDouban_inv item r Hr) as (d & _ & Hid & _).
  unfold call_toString in Hid.
  destruct (field item "id") as [ | | b | n | s | elems | fields ];
    cbn [nullish] in Hid; try discriminate Hid.
  - injection Hid as Hid. repeat split; try discriminate.
    intros b' [= <-]. symmetry. exact Hid.
  - injection Hid as Hid. repeat split; try discriminate.
    intros n' [= <-]. symmetry. exact Hid.
  - injection Hid as Hid. repeat split; try discriminate.
    intros s' [= <-]. symmetry. exact Hid.
  - repeat split; discriminate.
  - repeat split; discriminate.
Qed.

End TMDB.

(** * The properties on concrete inputs

    Numbers are the integer-valued doubles of [ZNumber]; the API key is
    unset. *)

Lemma normalizeToDouban_total_on_well_formed_items_witness :
  well_formed_item (number := Z)
    (VObj [("id", VNum 550%Z); ("title", VStr "Fight Club")]) = true
  /\ exists r,
       normalizeToDouban (VObj [("id", VNum 550%Z); ("title", VStr "Fight Club")]) = Ok r.
Proof.
  split; [ reflexivity | ].
  apply (proj1 (proj1 (normalizeToDouban_total_on_well_formed_items (number := Z)) _)).
  reflexivity.
Defined.

(** C1, as stated, fails: an item without an identifier makes the
    normalizer throw. *)
Lemma normalizeToDouban_throws_without_id :
  normalizeToDouban (number := Z) (VObj [("title", VStr "Fight Club")]) = Throw TypeError
  /\ ~ exists r,
         normalizeToDouban (number := Z) (VObj [("title", VStr "Fight Club")]) = Ok r.
Proof.
  split; [ reflexivity | ].
  intros [r Hr]. discriminate Hr.
Qed.

Lemma getMovieList_tag_mapping_witness :
  getMovieList_endpoint "tv" "最新" = "/tv/on_the_air"
  /\ getMovieList_endpoint "movie" "动作片" = "/movie/popular".
Proof.
  pose proof (getMovieList_tag_mapping (number := Z) None "tv" "最新")
    as (_ & Hlatest & _).
  pose proof (getMovieList_tag_mapping (number := Z) None "movie" "动作片")
    as (_ & _ & _ & Hother & _).
  split.
  - apply Hlatest. right. reflexivity.
  - apply Hother; intros Heq; discriminate Heq.
Defined.

Lemma operations_complete_on_acceptable_responses_witness :
  (exists rs,
      snd (getMovieList (number := Z) None "movie" None None None
             (fun _ => HttpOk (Some (VObj [("results",
                                            VArr [VObj [("id", VNum 550%Z)]])]))))
      = Ok rs)
  /\ (exists rs,
        snd (searchMovies (number := Z) None "fight" None
               (fun _ => HttpOk (Some (VObj [("results",
                  VArr [VObj [("id", VNum 550%Z); ("media_type", VStr "movie")]])]))))
        = Ok rs).
Proof.
  pose proof (operations_complete_on_acceptable_responses (number := Z) None)
    as (_ & _ & Hlist & Hsearch).
  split.
  - apply (proj1 (Hlist "movie" None None None
                    (fun _ => HttpOk (Some (VObj [("results",
                                                   VArr [VObj [("id", VNum 550%Z)]])])))
                    (VObj [("results", VArr [VObj [("id", VNum 550%Z)]])])
                    eq_refl)).
    reflexivity.
  - apply (proj1 (Hsearch "fight" None
                    (fun _ => HttpOk (Some (VObj [("results",
                       VArr [VObj [("id", VNum 550%Z);
                                   ("media_type", VStr "movie")]])])))
                    (VObj [("results",
                       VArr [VObj [("id", VNum 550%Z); ("media_type", VStr "movie")]])])
                    eq_refl)).
    reflexivity.
Defined.

(** C3, as stated, fails: a [null] among the results makes both operations
    throw. *)
Lemma operations_throw_on_null_result :
  snd (getMovieList (number := Z) None "movie" (Some "hot") (Some 1%Z) None
         (fun _ => HttpOk (Some (VObj [("results", VArr [VNull])]))))
  = Throw TypeError
  /\ snd (searchMovies (number := Z) None "dune" (Some 1%Z)
            (fun _ => HttpOk (Some (VObj [("results", VArr [VNull])]))))
     = Throw TypeError.
Proof. split; reflexivity. Qed.

Lemma searchMovies_keeps_movie_and_tv_witness :
  exists rs,
    snd (searchMovies (number := Z) None "dune" None
           (fun _ => HttpOk (Some (VObj [("results",
              VArr [VObj [("id", VNum 1%Z); ("media_type", VStr "person")];
                    VObj [("id", VNum 2%Z); ("media_type", VStr "movie")];
                    VObj [("id", VNum 3%Z); ("media_type", VStr "tv")]])]))))
    = Ok rs
    /\ Forall2 (fun i r => normalizeToDouban i = Ok r)
         [VObj [("id", VNum 2%Z); ("media_type", VStr "movie")];
          VObj [("id", VNum 3%Z); ("media_type", VStr "tv")]]
         rs.
Proof.
  pose proof (searchMovies_keeps_movie_and_tv (number := Z) None "dune" None
                (fun _ => HttpOk (Some (VObj [("results",
                   VArr [VObj [("id", VNum 1%Z); ("media_type", VStr "person")];
                         VObj [("id", VNum 2%Z); ("media_type", VStr "movie")];
                         VObj [("id", VNum 3%Z); ("media_type", VStr "tv")]])])))
                (VObj [("results",
                   VArr [VObj [("id", VNum 1%Z); ("media_type", VStr "person")];
                         VObj [("id", VNum 2%Z); ("media_type", VStr "movie")];
                         VObj [("id", VNum 3%Z); ("media_type", VStr "tv")]])])
                _ eq_refl eq_refl) as (_ & _ & Hreturns & _).
  apply Hreturns.
  - repeat constructor.
  - reflexivity.
Defined.

(** C4, as stated, fails: a [null] result beside a movie is not discarded;
    the search throws and the movie is never returned. *)
Lemma searchMovies_throws_on_null_beside_movie :
  filter (movie_or_tv (number := Z))
    [VNull; VObj [("id", VNum 2%Z); ("media_type", VStr "movie")]]
  = [VObj [("id", VNum 2%Z); ("media_type", VStr "movie")]]
  /\ snd (searchMovies (number := Z) None "dune" (Some 1%Z)
            (fun _ => HttpOk (Some (VObj [("results",
               VArr [VNull;
                     VObj [("id", VNum 2%Z); ("media_type", VStr "movie")]])]))))
     = Throw TypeError
  /\ ~ exists rs,
         snd (searchMovies (number := Z) None "dune" (Some 1%Z)
                (fun _ => HttpOk (Some (VObj [("results",
                   VArr [VNull;
                         VObj [("id", VNum 2%Z); ("media_type", VStr "movie")]])]))))
         = Ok rs.
Proof.
  split; [ reflexivity | split; [ reflexivity | ] ].
  intros [rs Hrs]. discriminate Hrs.
Qed.

Lemma empty_on_absent_or_falsy_results_witness :
  snd (getMovieList (number := Z) None "tv" None None None
         (fun _ => NetworkError)) = Ok []
  /\ snd (searchMovies (number := Z) None "dune" None
            (fun _ => HttpOk (Some (VObj [("status_message", VStr "oops")])))) = Ok [].
Proof.
  split.
  - apply (proj1 (empty_on_absent_or_falsy_results (number := Z) None VNull
                    (or_introl eq_refl))).
    reflexivity.
  - apply (proj1 (proj2 (empty_on_absent_or_falsy_results (number := Z) None
                           (VObj [("status_message", VStr "oops")])
                           (or_intror (or_intror (or_intror eq_refl)))))).
    reflexivity.
Defined.

(** C5, as stated, fails: a response whose [results] is an object, not an
    array, makes both operations throw. *)
Lemma operations_throw_on_non_array_results :
  snd (list_fetch (number := Z) None "movie" "hot" 1%Z
         (fun _ => HttpOk (Some (VObj [("results", VObj [])]))))
  = Ok (VObj [("results", VObj [])])
  /\ snd (getMovieList (number := Z) None "movie" (Some "hot") (Some 1%Z) None
            (fun _ => HttpOk (Some (VObj [("results", VObj [])]))))
     = Throw TypeError
  /\ snd (searchMovies (number := Z) None "dune" (Some 1%Z)
            (fun _ => HttpOk (Some (VObj [("results", VObj [])]))))
     = Throw TypeError.
Proof. repeat split. Qed.


Lemma movie_key_first_then_series_key_witness :
  (exists r,
      normalizeToDouban (number := Z)
        (VObj [("id", VNum 7%Z); ("title", VStr "Movie"); ("name", VStr "Series")]) = Ok r
      /\ title r = VStr "Movie")
  /\ (exists r,
        normalizeToDouban (number := Z)
          (VObj [("id", VNum 8%Z); ("name", VStr "Series");
                 ("original_name", VStr "Serie");
                 ("first_air_date", VStr "1999-03-31")]) = Ok r
        /\ title r = VStr "Series"
        /\ original_title r = VStr "Serie"
        /\ year r = VStr "1999").
Proof.
  split.
  - destruct (proj1 (movie_key_first_then_series_key (number := Z)
                       (VObj [("id", VNum 7%Z); ("title", VStr "Movie");
                              ("name", VStr "Series")])) eq_refl)
      as (r & Hr & Htitle & _).
    exists r. split; [ exact Hr | ].
    apply Htitle. reflexivity.
  - destruct (proj1 (movie_key_first_then_series_key (number := Z)
                       (VObj [("id", VNum 8%Z); ("name", VStr "Series");
                              ("original_name", VStr "Serie");
                              ("first_air_date", VStr "1999-03-31")])) eq_refl)
      as (r & Hr & _ & Hname & _ & Horig & _ & Hyear).
    exists r. split; [ exact Hr | ].
    split; [ apply Hname; reflexivity | ].
    split; [ apply Horig; reflexivity | ].
    destruct (Hyear eq_refl eq_refl) as (d & Hd & Hy).
    injection Hd as <-. exact Hy.
Defined.


Lemma getMovieList_type_defaults_to_movie_witness :
  getMovieList_endpoint "series" "latest" = getMovieList_endpoint "movie" "latest"
  /\ In (getMovieList_endpoint "tv" "latest")
        ["/tv/popular"; "/tv/on_the_air"; "/tv/top_rated"]
  /\ (exists req,
        fst (getMovieList (number := Z) None "series" (Some "latest") None None
               (fun _ => NetworkError)) = [req]
        /\ In (url req)
              [TMDB_BASE_URL ++ "/movie/popular";
               TMDB_BASE_URL ++ "/movie/now_playing";
               TMDB_BASE_URL ++ "/movie/top_rated"])
  /\ (exists req,
        fst (getMovieList (number := Z) None "tv" (Some "latest") None None
               (fun _ => NetworkError)) = [req]
        /\ In (url req)
              [TMDB_BASE_URL ++ "/tv/popular";
               TMDB_BASE_URL ++ "/tv/on_the_air";
               TMDB_BASE_URL ++ "/tv/top_rated"]).
Proof.
  pose proof (getMovieList_type_defaults_to_movie (number := Z) None "series" "latest")
    as (Hmovie & _ & _ & Hmovie_req & _).
  pose proof (getMovieList_type_defaults_to_movie (number := Z) None "tv" "latest")
    as (_ & Htv & _ & _ & Htv_req).
  split; [ | split; [ | split ] ].
  - apply Hmovie. intros Heq. discriminate Heq.
  - apply Htv. reflexivity.
  - apply Hmovie_req. intros Heq. discriminate Heq.
  - apply Htv_req. reflexivity.
Defined.

(** * The further properties on concrete inputs *)

Lemma fetchTMDB_returns_body_or_null_witness :
  exists data,
    fetchTMDB (number := Z) (Some "key") "/movie/popular" [("page", "1")]
      (fun _ => HttpOk (Some (VStr "body")))
    = ([request_of (Some "key") "/movie/popular" [("page", "1")]], Ok data)
    /\ data = VStr "body".
Proof.
  destruct (fetchTMDB_returns_body_or_null (number := Z) (Some "key")
              "/movie/popular" [("page", "1")]
              (fun _ => HttpOk (Some (VStr "body"))))
    as (data & Hrun & _ & Hbody & _).
  exists data. split; [ exact Hrun | ].
  apply Hbody. reflexivity.
Defined.

Lemma getMovieList_maps_every_result_witness :
  exists rs,
    snd (getMovieList (number := Z) None "movie" None None None
           (fun _ => HttpOk (Some (VObj [("results",
              VArr [VObj [("id", VNum 1%Z)]; VObj [("id", VNum 2%Z)]])]))))
    = Ok rs
    /\ length rs = 2.
Proof.
  eexists. split; [ reflexivity | ].
  pose proof (getMovieList_maps_every_result (number := Z) None
                "movie" None None None
                (fun _ => HttpOk (Some (VObj [("results",
                   VArr [VObj [("id", VNum 1%Z)]; VObj [("id", VNum 2%Z)]])])))
                (VObj [("results",
                   VArr [VObj [("id", VNum 1%Z)]; VObj [("id", VNum 2%Z)]])])
                _ eq_refl eq_refl) as (_ & Hlen & _).
  exact (Hlen _ eq_refl).
Defined.

Lemma searchMovies_as_getMovieList_of_kept_results_witness :
  snd (searchMovies (number := Z) None "dune" None
         (fun _ => HttpOk (Some (VObj [("results",
            VArr [VObj [("id", VNum 1%Z); ("media_type", VStr "person")];
                  VObj [("id", VNum 2%Z); ("media_type", VStr "movie")]])]))))
  = snd (getMovieList (number := Z) None "movie" None None None
           (fun _ => HttpOk (Some (VObj [("results",
              VArr [VObj [("id", VNum 2%Z); ("media_type", VStr "movie")]])])))).
Proof.
  apply (searchMovies_as_getMovieList_of_kept_results (number := Z) None
           "dune" None _ "movie" None None None _
           (VObj [("results",
              VArr [VObj [("id", VNum 1%Z); ("media_type", VStr "person")];
                    VObj [("id", VNum 2%Z); ("media_type", VStr "movie")]])])
           (VObj [("results",
              VArr [VObj [("id", VNum 2%Z); ("media_type", VStr "movie")]])])
           [VObj [("id", VNum 1%Z); ("media_type", VStr "person")];
            VObj [("id", VNum 2%Z); ("media_type", VStr "movie")]]).
  - reflexivity.
  - reflexivity.
  - repeat constructor.
  - reflexivity.
  - reflexivity.
Defined.

Lemma normalizeToDouban_reads_only_its_keys_witness :
  normalizeToDouban (number := Z)
    (VObj [("id", VNum 1%Z); ("media_type", VStr "movie"); ("popularity", VNum 9%Z)])
  = normalizeToDouban (VObj [("id", VNum 1%Z)]).
Proof.
  apply (normalizeToDouban_reads_only_its_keys (number := Z)).
  intros k Hk. cbn in Hk.
  repeat (destruct Hk as [<- | Hk]; [ reflexivity | ]).
  contradiction.
Defined.

Lemma normalized_record_has_no_nullish_field_witness :
  exists r,
    normalizeToDouban (number := Z)
      (VObj [("id", VNum 1%Z); ("vote_average", VNull); ("overview", VNull)]) = Ok r
    /\ nullish (average (rating r)) = false
    /\ nullish (summary r) = false.
Proof.
  eexists. split; [ reflexivity | ].
  pose proof (normalized_record_has_no_nullish_field (number := Z)
                (VObj [("id", VNum 1%Z); ("vote_average", VNull); ("overview", VNull)])
                _ eq_refl) as (_ & _ & _ & _ & _ & _ & _ & _ & Ha & Hs).
  split; assumption.
Defined.

Lemma first_air_date_ignored_when_released_witness :
  normalizeToDouban (number := Z)
    (VObj [("id", VNum 1%Z); ("release_date", VStr "2020-01-01");
           ("first_air_date", VStr "1999-09-09")])
  = normalizeToDouban
      (VObj [("id", VNum 1%Z); ("release_date", VStr "2020-01-01")]).
Proof.
  apply (first_air_date_ignored_when_released (number := Z)).
  - reflexivity.
  - intros k Hk Hne. cbn in Hk.
    destruct Hk as [<- | Hk]; [ exfalso; apply Hne; reflexivity | ].
    repeat (destruct Hk as [<- | Hk]; [ reflexivity | ]).
    contradiction.
Defined.

Lemma failure_indistinguishable_from_no_results_witness :
  getMovieList (number := Z) None "movie" (Some "hot") (Some 1%Z) None
    (fun _ => HttpError)
  = getMovieList None "movie" (Some "hot") (Some 1%Z) None
      (fun _ => HttpOk (Some (VObj [("results", VArr [])]))).
Proof.
  apply (proj1 (failure_indistinguishable_from_no_results (number := Z) None
                  (fun _ => HttpError)
                  (fun _ => HttpOk (Some (VObj [("results", VArr [])])))
                  [("results", VArr [])]
                  (fun _ => eq_refl) (fun _ => eq_refl) eq_refl)).
Defined.

Lemma normalized_id_is_printed_item_id_witness :
  exists r,
    normalizeToDouban (number := Z) (VObj [("id", VStr "tt0137523")]) = Ok r
    /\ id r = "tt0137523".
Proof.
  eexists. split; [ reflexivity | ].
  pose proof (normalized_id_is_printed_item_id (number := Z)
                (VObj [("id", VStr "tt0137523")]) _ eq_refl) as (_ & Hstr & _).
  apply Hstr. reflexivity.
Defined.
